(** * The Liquid Glass launcher ([main.py])

    A shallow embedding of the PySide6 entry point.  The launcher is a
    straight line of toolkit calls with two early returns, so it is written
    in a state monad over a [World]: the process-wide toolkit state, the two
    console streams, and a history of the toolkit calls issued so far, each
    recorded with the toolkit state it was issued in.  What the launcher
    cannot decide by itself (its own location, the file system, what the QML
    engine makes of a file, what the event loop returns) is read from an
    [Env]. *)

From Stdlib Require Import String ZArith List.
From ExtLib Require Import Structures.Monad Structures.MonadState.
From ExtLib Require Import Data.Monads.StateMonad.
Import ListNotations.
Import MonadNotation.
Local Open Scope monad_scope.
Local Open Scope string_scope.
Local Open Scope Z_scope.

(** ** Values of the standard library: [pathlib.Path] *)

Module Pathlib.

(** A POSIX path: whether it starts at the root, and its components. *)
Record Path := mkPath { anchored : bool; parts : list string }.

(** [p.parent]: the path without its last component. *)
Definition parent (p : Path) : Path :=
  mkPath (anchored p) (removelast (parts p)).

(** [p / name] for a single relative component [name]. *)
Definition truediv (p : Path) (name : string) : Path :=
  mkPath (anchored p) (parts p ++ [name]).

(** [str(p)]. *)
Definition str (p : Path) : string :=
  match anchored p, parts p with
  | false, [] => "."
  | false, _ => String.concat "/" (parts p)
  | true, _ => "/" ++ String.concat "/" (parts p)
  end.

End Pathlib.
Export Pathlib.

Notation "p // name" := (truediv p name) (at level 40, left associativity).

(** ** Values and objects of the toolkit *)

Inductive ApplicationAttribute :=
| AA_ShareOpenGLContexts
| AA_UseDesktopOpenGL
| AA_UseOpenGLES
| AA_UseSoftwareOpenGL.

Inductive OpenGLContextProfile := NoProfile | CoreProfile | CompatibilityProfile.

(** [QSurfaceFormat] is a value type; its setters update the local copy. *)
Record QSurfaceFormat := mkFormat {
  majorVersion : Z;
  minorVersion : Z;
  profile : OpenGLContextProfile;
  samples : Z;
  swapInterval : Z
}.

(** [QSurfaceFormat()]: the toolkit's default-constructed format. *)
Definition QSurfaceFormat_new : QSurfaceFormat := mkFormat 2 0 NoProfile (-1) 1.

Definition setVersion (major minor : Z) (f : QSurfaceFormat) : QSurfaceFormat :=
  mkFormat major minor (profile f) (samples f) (swapInterval f).
Definition setProfile (p : OpenGLContextProfile) (f : QSurfaceFormat) : QSurfaceFormat :=
  mkFormat (majorVersion f) (minorVersion f) p (samples f) (swapInterval f).
Definition setSamples (n : Z) (f : QSurfaceFormat) : QSurfaceFormat :=
  mkFormat (majorVersion f) (minorVersion f) (profile f) n (swapInterval f).
Definition setSwapInterval (n : Z) (f : QSurfaceFormat) : QSurfaceFormat :=
  mkFormat (majorVersion f) (minorVersion f) (profile f) (samples f) n.

Inductive QUrl := fromLocalFile (localFile : string).

Inductive QObject := QObj (id : nat).

(** The application singleton: the arguments it was built from and its
    three identity fields. *)
Record QGuiApplication := mkApp {
  arguments : list string;
  applicationName : string;
  organizationName : string;
  organizationDomain : string
}.

(** The QML engine: the import paths registered with [addImportPath],
    oldest first, and the root objects its loads have produced. *)
Record QQmlApplicationEngine := mkEngine {
  importPaths : list string;
  rootObjects : list QObject
}.

(** The process-wide toolkit state. *)
Record Toolkit := mkToolkit {
  attributes : list ApplicationAttribute;
  defaultFormat : QSurfaceFormat;
  application : option QGuiApplication;
  engine : option QQmlApplicationEngine
}.

(** The toolkit calls that change process-wide state or block. *)
Inductive Call :=
| SetAttribute (a : ApplicationAttribute)
| SetDefaultFormat (f : QSurfaceFormat)
| NewGuiApplication (argv : list string)
| SetApplicationName (s : string)
| SetOrganizationName (s : string)
| SetOrganizationDomain (s : string)
| NewQmlEngine
| AddImportPath (p : string)
| Load (u : QUrl)
| Exec.

(** [stdout] and [stderr] hold the lines the launcher's [print] calls write
    to [sys.stdout] and [sys.stderr], one entry per call, oldest first;
    [history] holds one entry per toolkit call, oldest first, paired with
    the toolkit state the call was issued in. *)
Record World := mkWorld {
  toolkit : Toolkit;
  history : list (Call * Toolkit);
  stdout : list string;
  stderr : list string
}.

(** What a run depends on and the launcher does not control. *)
Record Env := mkEnv {
  argv : list string;                       (* sys.argv *)
  module_file : Path;                       (* Path(__file__) *)
  resolve : Path -> Path;                   (* Path.resolve() *)
  path_exists : Path -> bool;               (* Path.exists() *)
  qml_load : QQmlApplicationEngine -> QUrl -> list QObject;
                                            (* the objects a load creates *)
  event_loop : Toolkit -> Z                 (* the status app.exec() ends with *)
}.

(** The state of a process in which no toolkit call has been made yet. *)
Definition process_start : World :=
  mkWorld (mkToolkit [] QSurfaceFormat_new None None) [] [] [].

(** ** Toolkit calls as state transformers *)

Definition IO := state World.

(** Record call [c] and apply its effect [f] to the toolkit state. *)
Definition call (c : Call) (f : Toolkit -> Toolkit) : IO unit :=
  modify (fun w =>
    mkWorld (f (toolkit w)) (history w ++ [(c, toolkit w)]) (stdout w) (stderr w)) ;;
  ret tt.

(** A method call on the application, respectively on the engine: the
    launcher holds the only instance of each, in [app] and [engine]. *)
Definition on_application (f : QGuiApplication -> QGuiApplication) (t : Toolkit) : Toolkit :=
  mkToolkit (attributes t) (defaultFormat t) (option_map f (application t)) (engine t).

Definition on_engine (f : QQmlApplicationEngine -> QQmlApplicationEngine) (t : Toolkit) : Toolkit :=
  mkToolkit (attributes t) (defaultFormat t) (application t) (option_map f (engine t)).

Definition QCoreApplication_setAttribute (a : ApplicationAttribute) : IO unit :=
  call (SetAttribute a) (fun t =>
    mkToolkit (attributes t ++ [a]) (defaultFormat t) (application t) (engine t)).

Definition QSurfaceFormat_setDefaultFormat (f : QSurfaceFormat) : IO unit :=
  call (SetDefaultFormat f) (fun t =>
    mkToolkit (attributes t) f (application t) (engine t)).

Definition QGuiApplication_new (args : list string) : IO unit :=
  call (NewGuiApplication args) (fun t =>
    mkToolkit (attributes t) (defaultFormat t) (Some (mkApp args "" "" "")) (engine t)).

Definition setApplicationName (s : string) : IO unit :=
  call (SetApplicationName s) (on_application (fun a =>
    mkApp (arguments a) s (organizationName a) (organizationDomain a))).

Definition setOrganizationName (s : string) : IO unit :=
  call (SetOrganizationName s) (on_application (fun a =>
    mkApp (arguments a) (applicationName a) s (organizationDomain a))).

Definition setOrganizationDomain (s : string) : IO unit :=
  call (SetOrganizationDomain s) (on_application (fun a =>
    mkApp (arguments a) (applicationName a) (organizationName a) s)).

Definition QQmlApplicationEngine_new : IO unit :=
  call NewQmlEngine (fun t =>
    mkToolkit (attributes t) (defaultFormat t) (application t) (Some (mkEngine [] []))).

Definition addImportPath (p : string) : IO unit :=
  call (AddImportPath p) (on_engine (fun e =>
    mkEngine (importPaths e ++ [p]) (rootObjects e))).

Definition engine_load (env : Env) (u : QUrl) : IO unit :=
  call (Load u) (on_engine (fun e =>
    mkEngine (importPaths e) (rootObjects e ++ qml_load env e u))).

(** [engine.rootObjects()]. *)
Definition engine_rootObjects : IO (list QObject) :=
  w <- get ;;
  ret match engine (toolkit w) with
      | Some e => rootObjects e
      | None => []
      end.

(** [app.exec()]: blocks in the event loop and yields its status. *)
Definition app_exec (env : Env) : IO Z :=
  w <- get ;;
  call Exec (fun t => t) ;;
  ret (event_loop env (toolkit w)).

(** [print(s)] writes one line to the standard output. *)
Definition print (s : string) : IO unit :=
  modify (fun w => mkWorld (toolkit w) (history w) (stdout w ++ [s]) (stderr w)) ;;
  ret tt.

(** Python's truth value of a list. *)
Definition truthy {A} (l : list A) : bool :=
  match l with [] => false | _ :: _ => true end.

(** ** The launcher *)

Definition setup_opengl : IO unit :=
  let fmt := QSurfaceFormat_new in
  let fmt := setVersion 3 3 fmt in
  let fmt := setProfile CoreProfile fmt in
  let fmt := setSamples 4 fmt in
  let fmt := setSwapInterval 1 fmt in
  QSurfaceFormat_setDefaultFormat fmt.

Definition app_dir (env : Env) : Path := resolve env (parent (module_file env)).
Definition qml_dir (env : Env) : Path := app_dir env // "qml".
Definition components_dir (env : Env) : Path := qml_dir env // "components".
Definition main_qml (env : Env) : Path := qml_dir env // "Main.qml".

Definition main (env : Env) : IO Z :=
  QCoreApplication_setAttribute AA_ShareOpenGLContexts ;;
  setup_opengl ;;
  QGuiApplication_new (argv env) ;;
  setApplicationName "Liquid Glass Demo" ;;
  setOrganizationName "LiquidGlass" ;;
  setOrganizationDomain "liquidglass.demo" ;;
  QQmlApplicationEngine_new ;;
  addImportPath (str (qml_dir env)) ;;
  addImportPath (str (components_dir env)) ;;
  if negb (path_exists env (main_qml env)) then
    print ("Error: Main.qml not found at " ++ str (main_qml env)) ;;
    ret 1
  else
    engine_load env (fromLocalFile (str (main_qml env))) ;;
    roots <- engine_rootObjects ;;
    if negb (truthy roots) then
      print "Error: Failed to load QML" ;;
      ret 1
    else
      app_exec env.

(** One run of the launcher in a fresh process: exit code and final world. *)
Definition run (env : Env) : Z * World := runState (main env) process_start.
Definition exit_code (env : Env) : Z := fst (run env).
Definition final (env : Env) : World := snd (run env).

(** ** Observations of a run *)

(** The calls of a world's history, without the states. *)
Definition calls (w : World) : list Call := map fst (history w).

(** The calls that construct the application or write its identity. *)
Definition touches_identity (c : Call) : bool :=
  match c with
  | NewGuiApplication _ | SetApplicationName _
  | SetOrganizationName _ | SetOrganizationDomain _ => true
  | _ => false
  end.

(** The two diagnostics of the launcher. *)
Definition not_found_message (env : Env) : string :=
  "Error: Main.qml not found at " ++ str (main_qml env).
Definition load_failed_message : string := "Error: Failed to load QML".

(** The engine as the launcher has set it up when it asks for the load,
    the URL it asks for, and the root objects that load creates. *)
Definition engine_at_load (env : Env) : QQmlApplicationEngine :=
  mkEngine [str (qml_dir env); str (components_dir env)] [].
Definition load_request (env : Env) : QUrl := fromLocalFile (str (main_qml env)).
Definition loaded_roots (env : Env) : list QObject :=
  qml_load env (engine_at_load env) (load_request env).

(** The two startup failures. *)
Definition root_missing (env : Env) : Prop :=
  path_exists env (main_qml env) = false.
Definition load_failed (env : Env) : Prop :=
  path_exists env (main_qml env) = true /\ loaded_roots env = [].

(** The surface format and the application the launcher sets up. *)
Definition launcher_format : QSurfaceFormat := mkFormat 3 3 CoreProfile 4 1.
Definition launcher_app (env : Env) : QGuiApplication :=
  mkApp (argv env) "Liquid Glass Demo" "LiquidGlass" "liquidglass.demo".

(** Toolkit states a run goes through once the attribute and the format are
    in place. *)
Definition configured (a : option QGuiApplication) (e : option QQmlApplicationEngine)
  : Toolkit :=
  mkToolkit [AA_ShareOpenGLContexts] launcher_format a e.

Definition ready (env : Env) : Toolkit :=
  configured (Some (launcher_app env)) (Some (engine_at_load env)).

Definition loaded (env : Env) : Toolkit :=
  configured (Some (launcher_app env))
    (Some (mkEngine (importPaths (engine_at_load env)) (loaded_roots env))).

(** The history every run shares, up to the existence check. *)
Definition startup_history (env : Env) : list (Call * Toolkit) :=
  [ (SetAttribute AA_ShareOpenGLContexts, toolkit process_start);
    (SetDefaultFormat launcher_format,
     mkToolkit [AA_ShareOpenGLContexts] QSurfaceFormat_new None None);
    (NewGuiApplication (argv env), configured None None);
    (SetApplicationName "Liquid Glass Demo",
     configured (Some (mkApp (argv env) "" "" "")) None);
    (SetOrganizationName "LiquidGlass",
     configured (Some (mkApp (argv env) "Liquid Glass Demo" "" "")) None);
    (SetOrganizationDomain "liquidglass.demo",
     configured (Some (mkApp (argv env) "Liquid Glass Demo" "LiquidGlass" "")) None);
    (NewQmlEngine, configured (Some (launcher_app env)) None);
    (AddImportPath (str (qml_dir env)),
     configured (Some (launcher_app env)) (Some (mkEngine [] [])));
    (AddImportPath (str (components_dir env)),
     configured (Some (launcher_app env)) (Some (mkEngine [str (qml_dir env)] []))) ].

(** Both startup failures together. *)
Definition startup_failure (env : Env) : Prop := root_missing env \/ load_failed env.

(** ** Sample environments

    The launcher installed as [/opt/demo/main.py] and started as
    [python main.py]: without its [qml] directory, with a [Main.qml] the
    engine cannot instantiate, with a good one whose window is closed, and
    with a good one that ends by [QCoreApplication.exit(3)]. *)

Definition demo_file : Path := mkPath true ["opt"; "demo"; "main.py"].

Definition env_no_qml : Env :=
  mkEnv ["main.py"] demo_file (fun p => p) (fun _ => false)
        (fun _ _ => []) (fun _ => 0).

Definition env_broken_qml : Env :=
  mkEnv ["main.py"] demo_file (fun p => p) (fun _ => true)
        (fun _ _ => []) (fun _ => 0).

Definition env_demo : Env :=
  mkEnv ["main.py"] demo_file (fun p => p) (fun _ => true)
        (fun _ _ => [QObj 0]) (fun _ => 0).

Definition env_quit3 : Env :=
  mkEnv ["main.py"] demo_file (fun p => p) (fun _ => true)
        (fun _ _ => [QObj 0]) (fun _ => 3).

(** ** The module body

    What executing [main.py] does after its imports and definitions: under
    the name [__main__] it calls [sys.exit(main())], which raises
    [SystemExit] with the status [main] returned; under any other name
    (an import) the guard is false and the body is finished. *)

Inductive Completion :=
| Finished
| SystemExit (status : Z).

Definition sys_exit (status : Z) : IO Completion := ret (SystemExit status).

Definition module_body (env : Env) (name : string) : IO Completion :=
  if String.eqb name "__main__" then
    status <- main env ;;
    sys_exit status
  else
    ret Finished.

(** A process that has already printed a line, set another attribute and
    installed another default format, but has no application or engine. *)
Definition world_in_use : World :=
  mkWorld (mkToolkit [AA_UseSoftwareOpenGL] (mkFormat 4 1 CompatibilityProfile 0 0)
                     None None)
          [ (SetAttribute AA_UseSoftwareOpenGL, toolkit process_start);
            (SetDefaultFormat (mkFormat 4 1 CompatibilityProfile 0 0),
             mkToolkit [AA_UseSoftwareOpenGL] QSurfaceFormat_new None None) ]
          ["starting"] ["warning"].

(** The load requests among the toolkit calls. *)
Definition is_load (c : Call) : bool :=
  match c with Load _ => true | _ => false end.

(** ** The three ways a run ends *)

Section Outcomes.

Variable env : Env.

(** Run the launcher's calls on the current world as far as they go. *)
Ltac launch :=
  cbn; unfold on_engine, on_application; cbn;
  try fold (engine_at_load env) (load_request env) (loaded_roots env).

Lemma run_root_missing :
  root_missing env ->
  run env = (1, mkWorld (ready env) (startup_history env) [not_found_message env] []).
Proof.
  unfold root_missing, run, main. intros Hmissing.
  launch. rewrite Hmissing. reflexivity.
Qed.

Lemma run_load_failed :
  load_failed env ->
  run env = (1, mkWorld (loaded env)
                        (startup_history env ++ [(Load (load_request env), ready env)])
                        [load_failed_message] []).
Proof.
  unfold load_failed, run, main. intros [Hexists Hroots].
  launch. rewrite Hexists. launch. unfold loaded. rewrite Hroots. reflexivity.
Qed.

Lemma run_loaded :
  path_exists env (main_qml env) = true ->
  loaded_roots env <> [] ->
  run env = (event_loop env (loaded env),
             mkWorld (loaded env)
                     (startup_history env ++
                      [(Load (load_request env), ready env); (Exec, loaded env)])
                     [] []).
Proof.
  unfold run, main. intros Hexists Hroots.
  launch. rewrite Hexists. launch. unfold loaded.
  destruct (loaded_roots env) as [|o roots]; [congruence|reflexivity].
Qed.

(** Every run ends in one of the three ways. *)
Lemma run_cases :
  root_missing env \/ load_failed env \/
  (path_exists env (main_qml env) = true /\ loaded_roots env <> []).
Proof.
  unfold root_missing, load_failed.
  destruct (path_exists env (main_qml env)); [right|left; reflexivity].
  destruct (loaded_roots env); [left|right]; split; congruence.
Qed.

End Outcomes.

(** Unfold a run whose outcome [H] is known. *)
Ltac outcome env H :=
  unfold exit_code, final, calls;
  first [ rewrite (run_root_missing env H)
        | rewrite (run_load_failed env H)
        | rewrite (run_loaded env (proj1 H) (proj2 H)) ];
  cbn [fst snd toolkit history stdout stderr].

(** Split on the three outcomes of the run of [env]. *)
Ltac by_outcome env :=
  destruct (run_cases env) as [Hrun | [Hrun | Hrun]]; outcome env Hrun.

(** Go through the entries of a history given by [H : In _ _]. *)
Ltac entries H :=
  cbn in H;
  repeat (destruct H as [H | H]);
  try contradiction; try discriminate H.

(** The history of every run starts with the startup history. *)
Lemma history_startup env :
  exists rest, history (final env) = (startup_history env ++ rest)%list.
Proof.
  by_outcome env.
  - exists []. now rewrite app_nil_r.
  - eexists. reflexivity.
  - eexists. reflexivity.
Qed.

(** ** Sample runs *)

Example run_env_demo_exit : exit_code env_demo = 0.
Proof. reflexivity. Qed.

Example run_env_demo_paths :
  option_map importPaths (engine (toolkit (final env_demo)))
  = Some ["/opt/demo/qml"; "/opt/demo/qml/components"].
Proof. reflexivity. Qed.

Example run_env_no_qml :
  exit_code env_no_qml = 1 /\
  stdout (final env_no_qml) = ["Error: Main.qml not found at /opt/demo/qml/Main.qml"].
Proof. split; reflexivity. Qed.

Example run_env_broken_qml :
  exit_code env_broken_qml = 1 /\
  stdout (final env_broken_qml) = ["Error: Failed to load QML"].
Proof. split; reflexivity. Qed.

Example run_env_quit3 : exit_code env_quit3 = 3.
Proof. reflexivity. Qed.

(** ** The exits of the launcher *)

(** C1: when the root resource file ([Main.qml] in the UI-root directory)
    does not exist, the run prints a diagnostic naming the missing path,
    returns 1, and never calls the event loop. *)
Theorem missing_root_exits_1 env :
  path_exists env (qml_dir env // "Main.qml") = false ->
  exit_code env = 1 /\
  stdout (final env)
    = ["Error: Main.qml not found at " ++ str (qml_dir env // "Main.qml")] /\
  ~ In Exec (calls (final env)).
Proof.
  intros H. change (root_missing env) in H. outcome env H.
  split; [reflexivity | split; [reflexivity |]].
  cbn. intuition discriminate.
Qed.

Lemma missing_root_exits_1_witness :
  exit_code env_no_qml = 1 /\
  stdout (final env_no_qml)
    = ["Error: Main.qml not found at " ++ str (qml_dir env_no_qml // "Main.qml")] /\
  ~ In Exec (calls (final env_no_qml)).
Proof. apply (missing_root_exits_1 env_no_qml). reflexivity. Defined.

(** C2: when the root resource file exists but the load leaves the engine
    without a root object, the run prints a diagnostic, returns 1, and never
    calls the event loop. *)
Theorem failed_load_exits_1 env :
  path_exists env (main_qml env) = true ->
  loaded_roots env = [] ->
  exit_code env = 1 /\
  option_map rootObjects (engine (toolkit (final env))) = Some [] /\
  stdout (final env) = ["Error: Failed to load QML"] /\
  ~ In Exec (calls (final env)).
Proof.
  intros Hexists Hroots.
  assert (H : load_failed env) by (split; assumption).
  outcome env H.
  split; [reflexivity | split; [| split; [reflexivity |]]].
  - cbn. now rewrite Hroots.
  - cbn. intuition discriminate.
Qed.

Lemma failed_load_exits_1_witness :
  exit_code env_broken_qml = 1 /\
  option_map rootObjects (engine (toolkit (final env_broken_qml))) = Some [] /\
  stdout (final env_broken_qml) = ["Error: Failed to load QML"] /\
  ~ In Exec (calls (final env_broken_qml)).
Proof. apply (failed_load_exits_1 env_broken_qml); reflexivity. Defined.

(** C3: when the root resource file exists and the load yields at least
    one root object, the run calls the event loop, as its last toolkit call
    and only then, and returns exactly the status the event loop ends
    with. *)
Theorem loaded_root_returns_event_loop_status env :
  path_exists env (main_qml env) = true ->
  loaded_roots env <> [] ->
  exists before tk,
    history (final env) = (before ++ [(Exec, tk)])%list /\
    ~ In Exec (map fst before) /\
    option_map rootObjects (engine tk) = Some (loaded_roots env) /\
    exit_code env = event_loop env tk.
Proof.
  intros Hexists Hroots.
  pose proof (conj Hexists Hroots) as H. outcome env H.
  exists (startup_history env ++ [(Load (load_request env), ready env)])%list, (loaded env).
  split; [reflexivity | split; [| split; reflexivity]].
  cbn. intuition discriminate.
Qed.

Lemma loaded_root_returns_event_loop_status_witness :
  exists before tk,
    history (final env_quit3) = (before ++ [(Exec, tk)])%list /\
    ~ In Exec (map fst before) /\
    option_map rootObjects (engine tk) = Some (loaded_roots env_quit3) /\
    exit_code env_quit3 = event_loop env_quit3 tk.
Proof.
  apply (loaded_root_returns_event_loop_status env_quit3).
  - reflexivity.
  - discriminate.
Defined.

(** ** What is in place when the application is constructed *)

(** C4: every run constructs the application, and whenever it does the
    default surface format already is version 3.3, core profile, 4 samples,
    swap interval 1; that default is still installed when the run ends. *)
Theorem default_format_before_application env :
  In (NewGuiApplication (argv env)) (calls (final env)) /\
  (forall args tk,
     In (NewGuiApplication args, tk) (history (final env)) ->
     application tk = None /\
     majorVersion (defaultFormat tk) = 3 /\
     minorVersion (defaultFormat tk) = 3 /\
     profile (defaultFormat tk) = CoreProfile /\
     samples (defaultFormat tk) = 4 /\
     swapInterval (defaultFormat tk) = 1) /\
  defaultFormat (toolkit (final env)) = mkFormat 3 3 CoreProfile 4 1.
Proof.
  split; [| split].
  - destruct (history_startup env) as [rest Hrest].
    unfold calls. rewrite Hrest, map_app. apply in_or_app. left.
    cbn. tauto.
  - intros args tk.
    by_outcome env; intros Hin; entries Hin;
      injection Hin as _ <-; repeat split; reflexivity.
  - by_outcome env; reflexivity.
Qed.

(** C6: in every run the shared-context attribute is set by a call that
    comes before the one construction of the application, which therefore
    finds the attribute set. *)
Theorem shared_context_before_application env :
  exists before tk after,
    history (final env)
      = (before ++ (NewGuiApplication (argv env), tk) :: after)%list /\
    In (SetAttribute AA_ShareOpenGLContexts) (map fst before) /\
    In AA_ShareOpenGLContexts (attributes tk) /\
    application tk = None /\
    (forall args, ~ In (NewGuiApplication args) (map fst before ++ map fst after)).
Proof.
  exists (firstn 2 (startup_history env)), (configured None None).
  by_outcome env;
    [ exists (skipn 3 (startup_history env))
    | exists (skipn 3 (startup_history env)
              ++ [(Load (load_request env), ready env)])%list
    | exists (skipn 3 (startup_history env)
              ++ [(Load (load_request env), ready env); (Exec, loaded env)])%list ];
    (split; [reflexivity |]);
    (split; [cbn; tauto |]);
    (split; [cbn; tauto |]);
    (split; [reflexivity |]);
    intros args Hin; entries Hin.
Qed.

(** C7: in every run the construction of the application is directly
    followed by the three calls that set its name, organization and domain;
    no other call constructs an application or sets one of these fields, and
    from then on the application carries exactly these values. *)
Theorem identity_assigned_once env :
  exists before tk1 tk2 tk3 tk4 after,
    history (final env)
      = (before ++
         [ (NewGuiApplication (argv env), tk1);
           (SetApplicationName "Liquid Glass Demo", tk2);
           (SetOrganizationName "LiquidGlass", tk3);
           (SetOrganizationDomain "liquidglass.demo", tk4) ] ++ after)%list /\
    forallb (fun c => negb (touches_identity c))
            (map fst before ++ map fst after) = true /\
    Forall (fun e => application (snd e)
                     = Some (mkApp (argv env) "Liquid Glass Demo"
                                   "LiquidGlass" "liquidglass.demo")) after /\
    application (toolkit (final env))
      = Some (mkApp (argv env) "Liquid Glass Demo" "LiquidGlass" "liquidglass.demo").
Proof.
  exists (firstn 2 (startup_history env)).
  by_outcome env; do 4 eexists;
    [ exists (skipn 6 (startup_history env))
    | exists (skipn 6 (startup_history env)
              ++ [(Load (load_request env), ready env)])%list
    | exists (skipn 6 (startup_history env)
              ++ [(Load (load_request env), ready env); (Exec, loaded env)])%list ];
    (split; [reflexivity |]);
    (split; [reflexivity |]);
    (split; [| reflexivity]);
    cbn; repeat constructor.
Qed.

(** ** What the engine knows when the load is requested *)

(** C5: a run in which the root resource file exists requests its load, and
    whenever a run requests a load the engine's registered import paths are
    the UI-root directory followed by its [components] subdirectory, both
    below the resolved directory of the launcher's own file. *)
Theorem import_paths_at_load env :
  (path_exists env (main_qml env) = true ->
   In (Load (fromLocalFile (str (main_qml env)))) (calls (final env))) /\
  (forall u tk,
     In (Load u, tk) (history (final env)) ->
     exists e,
       engine tk = Some e /\
       importPaths e
       = [ str (resolve env (parent (module_file env)) // "qml");
           str (resolve env (parent (module_file env)) // "qml" // "components") ]).
Proof.
  split.
  - intros Hexists.
    destruct (run_cases env) as [Hrun | [Hrun | Hrun]].
    + unfold root_missing in Hrun. congruence.
    + outcome env Hrun. cbn. tauto.
    + outcome env Hrun. cbn. tauto.
  - intros u tk.
    by_outcome env; intros Hin; entries Hin;
      injection Hin as _ <-; eexists; split; reflexivity.
Qed.

(** ** Exit codes, side effects and diagnostics of the failures *)

(** C8, as the claim states it, fails: a run without either startup failure
    returns a status other than 0 when the event loop ends with one. *)
Lemma nonzero_exit_without_startup_failure :
  ~ (exit_code env_quit3 <> 0 <-> startup_failure env_quit3).
Proof.
  intros [Hfailure _].
  assert (Hexit : exit_code env_quit3 <> 0) by (vm_compute; discriminate).
  destruct (Hfailure Hexit) as [Hmissing | [_ Hroots]]; discriminate.
Qed.

(** C8, amended: a run returns a status other than 0 exactly when the root
    resource file is missing, or the load yields no root object, or the
    event loop was entered and ended with a status other than 0.  Both
    startup failures return 1 by an ordinary return, before the event loop,
    and differ only in the diagnostic they print. *)
Theorem nonzero_exit_causes env :
  (exit_code env <> 0 <->
   startup_failure env \/
   exists tk, In (Exec, tk) (history (final env)) /\ event_loop env tk <> 0) /\
  (startup_failure env -> exit_code env = 1 /\ ~ In Exec (calls (final env))) /\
  (forall env',
     root_missing env -> load_failed env' ->
     exit_code env = exit_code env' /\ stdout (final env) <> stdout (final env')).
Proof.
  split; [| split].
  - unfold startup_failure. by_outcome env.
    + split; [tauto | discriminate].
    + split; [tauto | discriminate].
    + split.
      * intros Hstatus. right. exists (loaded env). split; [| exact Hstatus].
        apply in_or_app. right. cbn. tauto.
      * intros [[Hmissing | [_ Hroots]] | [tk [Hin Hstatus]]].
        -- unfold root_missing in Hmissing. destruct Hrun. congruence.
        -- destruct Hrun. congruence.
        -- entries Hin. injection Hin as <-. exact Hstatus.
  - intros [H | H]; outcome env H;
      (split; [reflexivity | cbn; intuition discriminate]).
  - intros env' Hmissing Hfailed.
    unfold exit_code, final.
    rewrite (run_root_missing env Hmissing), (run_load_failed env' Hfailed).
    split; [reflexivity |].
    cbn. unfold not_found_message, load_failed_message. cbn. discriminate.
Qed.

(** C9: when the root resource file is missing, the run returns 1 after it
    has set the shared-context attribute, installed the default surface
    format, constructed the application and the engine and registered both
    import paths: the toolkit is not left as the process found it. *)
Theorem missing_root_keeps_side_effects env :
  path_exists env (main_qml env) = false ->
  exit_code env = 1 /\
  calls (final env)
    = [ SetAttribute AA_ShareOpenGLContexts;
        SetDefaultFormat (mkFormat 3 3 CoreProfile 4 1);
        NewGuiApplication (argv env);
        SetApplicationName "Liquid Glass Demo";
        SetOrganizationName "LiquidGlass";
        SetOrganizationDomain "liquidglass.demo";
        NewQmlEngine;
        AddImportPath (str (qml_dir env));
        AddImportPath (str (components_dir env)) ] /\
  In AA_ShareOpenGLContexts (attributes (toolkit (final env))) /\
  defaultFormat (toolkit (final env)) = mkFormat 3 3 CoreProfile 4 1 /\
  application (toolkit (final env))
    = Some (mkApp (argv env) "Liquid Glass Demo" "LiquidGlass" "liquidglass.demo") /\
  engine (toolkit (final env))
    = Some (mkEngine [str (qml_dir env); str (components_dir env)] []) /\
  toolkit (final env) <> toolkit process_start.
Proof.
  intros H. change (root_missing env) in H. outcome env H.
  split; [reflexivity |].
  split; [reflexivity |].
  split; [cbn; tauto |].
  split; [reflexivity |].
  split; [reflexivity |].
  split; [reflexivity |].
  discriminate.
Qed.

Lemma missing_root_keeps_side_effects_witness :
  application (toolkit (final env_no_qml))
    = Some (mkApp ["main.py"] "Liquid Glass Demo" "LiquidGlass" "liquidglass.demo") /\
  engine (toolkit (final env_no_qml))
    = Some (mkEngine ["/opt/demo/qml"; "/opt/demo/qml/components"] []).
Proof.
  destruct (missing_root_keeps_side_effects env_no_qml) as (_ & _ & _ & _ & Happ & Hengine & _).
  - reflexivity.
  - split; [exact Happ | exact Hengine].
Defined.

(** C10: each startup failure prints exactly one line, on the standard
    output, and nothing on the standard error. *)
Theorem failures_print_one_line_on_stdout env :
  (root_missing env ->
   stdout (final env) = ["Error: Main.qml not found at " ++ str (main_qml env)] /\
   stderr (final env) = []) /\
  (load_failed env ->
   stdout (final env) = ["Error: Failed to load QML"] /\
   stderr (final env) = []).
Proof.
  split; intros H; outcome env H; split; reflexivity.
Qed.

(** * Further properties of the launcher *)

(** ** [setup_opengl] on its own *)

(** X1: in any world, [setup_opengl] changes nothing but the default surface
    format, whatever default was installed before, and records one call;
    calling it a second time changes the toolkit no further. *)
Theorem setup_opengl_idempotent w :
  toolkit (snd (runState setup_opengl w))
    = mkToolkit (attributes (toolkit w)) (mkFormat 3 3 CoreProfile 4 1)
                (application (toolkit w)) (engine (toolkit w)) /\
  toolkit (snd (runState (setup_opengl ;; setup_opengl) w))
    = toolkit (snd (runState setup_opengl w)) /\
  history (snd (runState setup_opengl w))
    = (history w ++ [(SetDefaultFormat (mkFormat 3 3 CoreProfile 4 1), toolkit w)])%list /\
  stdout (snd (runState setup_opengl w)) = stdout w /\
  stderr (snd (runState setup_opengl w)) = stderr w.
Proof. repeat (split; [reflexivity |]). reflexivity. Qed.


(** ** The resource paths *)

Lemma parent_truediv p name : parent (p // name) = p.
Proof.
  destruct p as [a l]. unfold parent, truediv. cbn.
  now rewrite removelast_last.
Qed.

Lemma append_assoc (a b c : string) : (a ++ b) ++ c = a ++ (b ++ c).
Proof.
  induction a as [|ch a IH]; cbn; [reflexivity | now rewrite IH].
Qed.

Lemma concat_snoc sep l name :
  l <> [] ->
  String.concat sep (l ++ [name]) = String.concat sep l ++ sep ++ name.
Proof.
  induction l as [|x [|y l] IH]; intros Hl.
  - congruence.
  - cbn. reflexivity.
  - change (String.concat sep ((x :: y :: l) ++ [name]))
      with (x ++ sep ++ String.concat sep ((y :: l) ++ [name])).
    rewrite IH by discriminate.
    change (String.concat sep (x :: y :: l))
      with (x ++ sep ++ String.concat sep (y :: l)).
    now rewrite !append_assoc.
Qed.

Lemma str_truediv p name :
  parts p <> [] -> str (p // name) = str p ++ "/" ++ name.
Proof.
  destruct p as [a l]. cbn. intros Hl. unfold str. cbn.
  rewrite concat_snoc by assumption.
  destruct a, l as [|x l]; try congruence; cbn;
    destruct (l ++ [name])%list eqn:E; try reflexivity;
    now destruct l.
Qed.

(** X3: the components directory and the root resource file both lie
    directly in the UI-root directory, which lies directly in the launcher's
    directory; as text, each is the UI-root directory followed by a slash
    and its own name. *)
Theorem resource_paths_layout env :
  parent (qml_dir env) = app_dir env /\
  parent (components_dir env) = qml_dir env /\
  parent (main_qml env) = qml_dir env /\
  str (components_dir env) = str (qml_dir env) ++ "/components" /\
  str (main_qml env) = str (qml_dir env) ++ "/Main.qml".
Proof.
  assert (Hqml : parts (qml_dir env) <> []).
  { unfold qml_dir, truediv. cbn. now destruct (parts (app_dir env)). }
  unfold components_dir, main_qml, qml_dir at 1.
  rewrite !parent_truediv, !str_truediv by exact Hqml.
  repeat (split; [reflexivity |]). reflexivity.
Qed.

(** X4: the text of the UI-root directory is the launcher's directory
    followed by [/qml]; when the launcher's directory is the file system
    root the text is [/qml], without a second slash. *)
Theorem qml_dir_text env :
  str (qml_dir env)
  = match parts (app_dir env) with
    | [] => if anchored (app_dir env) then "/qml" else "qml"
    | _ :: _ => str (app_dir env) ++ "/qml"
    end.
Proof.
  destruct (parts (app_dir env)) as [|x l] eqn:E.
  - unfold qml_dir, truediv, str. cbn. rewrite E.
    now destruct (anchored (app_dir env)).
  - unfold qml_dir. apply str_truediv. rewrite E. discriminate.
Qed.

(** ** Which calls a run makes, and when *)

(** X5: the engine is asked to load exactly when the root resource file
    exists, at most once, for the local file [Main.qml] of the UI-root
    directory and nothing else, and on an engine that has no root object
    yet. *)
Theorem load_requested_iff_root_exists env :
  (In (Load (fromLocalFile (str (main_qml env)))) (calls (final env))
   <-> path_exists env (main_qml env) = true) /\
  (forall u tk,
     In (Load u, tk) (history (final env)) ->
     u = fromLocalFile (str (main_qml env)) /\
     option_map rootObjects (engine tk) = Some []) /\
  (length (filter is_load (calls (final env))) <= 1)%nat.
Proof.
  split; [| split].
  - destruct (run_cases env) as [Hrun | [Hrun | Hrun]]; outcome env Hrun.
    + unfold root_missing in Hrun. rewrite Hrun. split; [| discriminate].
      intros Hin. entries Hin.
    + split; [intros _; apply Hrun | intros _; cbn; tauto].
    + split; [intros _; apply Hrun | intros _; cbn; tauto].
  - intros u tk.
    by_outcome env; intros Hin; entries Hin;
      injection Hin as <- <-; split; reflexivity.
  - by_outcome env; cbn; auto.
Qed.

(** X6: the event loop is entered exactly when the root resource file
    exists and its load created a root object; it is then entered with the
    application carrying its identity and with the engine holding the root
    objects of that load.  After a startup failure the engine holds no root
    object. *)
Theorem event_loop_needs_root_object env :
  (In Exec (calls (final env))
   <-> path_exists env (main_qml env) = true /\ loaded_roots env <> []) /\
  (forall tk,
     In (Exec, tk) (history (final env)) ->
     application tk
       = Some (mkApp (argv env) "Liquid Glass Demo" "LiquidGlass" "liquidglass.demo") /\
     exists e, engine tk = Some e /\ rootObjects e = loaded_roots env /\ rootObjects e <> []) /\
  (startup_failure env ->
   option_map rootObjects (engine (toolkit (final env))) = Some []).
Proof.
  split; [| split].
  - destruct (run_cases env) as [Hrun | [Hrun | Hrun]]; outcome env Hrun.
    + split; [intros Hin; entries Hin |].
      unfold root_missing in Hrun. intros [Hexists _]. congruence.
    + split; [intros Hin; entries Hin |].
      destruct Hrun as [_ Hroots]. intros [_ Hne]. congruence.
    + split; [intros _; exact Hrun | intros _; cbn; tauto].
  - intros tk.
    destruct (run_cases env) as [Hrun | [Hrun | Hrun]]; outcome env Hrun;
      intros Hin; entries Hin.
    injection Hin as <-. split; [reflexivity |].
    eexists. split; [reflexivity |]. split; [reflexivity | apply Hrun].
  - intros [H | H]; outcome env H; cbn; [reflexivity |].
    destruct H as [_ Hroots]. now rewrite Hroots.
Qed.

(** X7: every run constructs the engine, and only once the application
    exists and carries its whole identity; no engine exists before that, and
    every import path is registered on an engine that holds no root object,
    that is, before anything is loaded. *)
Theorem engine_created_after_application env :
  In NewQmlEngine (calls (final env)) /\
  (forall tk,
     In (NewQmlEngine, tk) (history (final env)) ->
     engine tk = None /\
     application tk
       = Some (mkApp (argv env) "Liquid Glass Demo" "LiquidGlass" "liquidglass.demo")) /\
  (forall p tk,
     In (AddImportPath p, tk) (history (final env)) ->
     option_map rootObjects (engine tk) = Some []).
Proof.
  split; [| split].
  - destruct (history_startup env) as [rest Hrest].
    unfold calls. rewrite Hrest, map_app. apply in_or_app. left.
    cbn. tauto.
  - intros tk.
    by_outcome env; intros Hin; entries Hin;
      injection Hin as <-; split; reflexivity.
  - intros p tk.
    by_outcome env; intros Hin; entries Hin;
      injection Hin as _ <-; reflexivity.
Qed.

(** ** What a run prints *)

(** X8: a run prints a diagnostic exactly when it fails at startup; a run
    that enters the event loop has printed nothing. *)
Theorem diagnostic_iff_startup_failure env :
  (stdout (final env) <> [] <-> startup_failure env) /\
  (In Exec (calls (final env)) -> stdout (final env) = []).
Proof.
  unfold startup_failure.
  destruct (run_cases env) as [Hrun | [Hrun | Hrun]]; outcome env Hrun.
  - split; [split; [tauto | discriminate] |].
    intros Hin. entries Hin.
  - split; [split; [tauto | discriminate] |].
    intros Hin. entries Hin.
  - split; [| reflexivity].
    split; [congruence |].
    unfold root_missing, load_failed.
    destruct Hrun as [Hexists Hroots].
    intros [Hmissing | [_ Hempty]]; congruence.
Qed.

(** ** The launcher in a process that is already in use *)

(** X9: started in any process that has no application and no engine yet,
    [main] only adds to what is there: the earlier history and the earlier
    output stay, nothing is written to the standard error, and the calls it
    makes and the lines it prints are those of a run in a fresh process,
    whatever attributes and default format it found.  It also returns the
    same status, unless that status comes from the event loop. *)
Theorem main_only_appends env w0 :
  application (toolkit w0) = None ->
  engine (toolkit w0) = None ->
  exists h,
    history (snd (runState (main env) w0)) = (history w0 ++ h)%list /\
    map fst h = calls (final env) /\
    stdout (snd (runState (main env) w0)) = (stdout w0 ++ stdout (final env))%list /\
    stderr (snd (runState (main env) w0)) = stderr w0 /\
    (In Exec (calls (final env)) \/ fst (runState (main env) w0) = exit_code env).
Proof.
  destruct w0 as [[attrs fmt app eng] h0 out err]. cbn. intros -> ->.
  destruct (run_cases env) as [Hrun | [Hrun | Hrun]]; outcome env Hrun.
  - unfold main. cbn. unfold on_engine, on_application. cbn.
    unfold root_missing in Hrun. rewrite Hrun. cbn.
    rewrite <- !app_assoc. cbn.
    eexists. split; [reflexivity |].
    split; [reflexivity |]. split; [reflexivity |]. split; [reflexivity |].
    right. reflexivity.
  - unfold main. cbn. unfold on_engine, on_application. cbn.
    destruct Hrun as [Hexists Hroots]. rewrite Hexists. cbn.
    fold (engine_at_load env) (load_request env) (loaded_roots env).
    rewrite Hroots. cbn.
    rewrite <- !app_assoc. cbn.
    eexists. split; [reflexivity |].
    split; [reflexivity |]. split; [reflexivity |]. split; [reflexivity |].
    right. reflexivity.
  - unfold main. cbn. unfold on_engine, on_application. cbn.
    destruct Hrun as [Hexists Hroots]. rewrite Hexists. cbn.
    fold (engine_at_load env) (load_request env) (loaded_roots env).
    destruct (loaded_roots env) as [|o roots]; [congruence |]. cbn.
    rewrite <- !app_assoc. cbn.
    eexists. split; [reflexivity |].
    split; [reflexivity |]. split; [now rewrite app_nil_r |].
    split; [reflexivity |].
    left. tauto.
Qed.

Lemma main_only_appends_witness :
  exists h,
    history (snd (runState (main env_broken_qml) world_in_use))
      = (history world_in_use ++ h)%list /\
    map fst h = calls (final env_broken_qml) /\
    stdout (snd (runState (main env_broken_qml) world_in_use))
      = (stdout world_in_use ++ stdout (final env_broken_qml))%list /\
    stderr (snd (runState (main env_broken_qml) world_in_use)) = stderr world_in_use /\
    (In Exec (calls (final env_broken_qml)) \/
     fst (runState (main env_broken_qml) world_in_use) = exit_code env_broken_qml).
Proof. apply (main_only_appends env_broken_qml world_in_use); reflexivity. Defined.

(** ** The module body *)

(** X10: executed under any name other than [__main__], the module body
    makes no toolkit call, prints nothing and does not exit; executed as
    [__main__] in a fresh process it always ends in [SystemExit], carrying
    the status [main] returned, which is 1 after either startup failure. *)
Theorem module_body_exits_only_as_main env :
  (forall name w,
     name <> "__main__" -> runState (module_body env name) w = (Finished, w)) /\
  runState (module_body env "__main__") process_start
    = (SystemExit (exit_code env), final env) /\
  (startup_failure env ->
   fst (runState (module_body env "__main__") process_start) = SystemExit 1).
Proof.
  assert (Hmain : runState (module_body env "__main__") process_start
                  = (SystemExit (exit_code env), final env)).
  { unfold module_body, exit_code, final, run.
    change ("__main__" =? "__main__")%string with true. cbv iota.
    change (runState (status <- main env ;; sys_exit status) process_start)
      with (let (status, w) := runState (main env) process_start in
            (SystemExit status, w)).
    now destruct (runState (main env) process_start). }
  split; [| split; [exact Hmain |]].
  - intros name w Hname. unfold module_body.
    apply String.eqb_neq in Hname. rewrite Hname. reflexivity.
  - intros Hfail. rewrite Hmain. cbn [fst].
    destruct Hfail as [H | H]; outcome env H; reflexivity.
Qed.

(** ** The whole call sequence *)

(** X11: the toolkit calls of a run are, in this order and with nothing
    else: the shared-context attribute, the default format, the application
    and its three identity fields, the engine and its two import paths;
    then the load if the root resource file exists; then the event loop if
    that load created a root object. *)
Theorem call_sequence env :
  calls (final env)
  = ([ SetAttribute AA_ShareOpenGLContexts;
       SetDefaultFormat (mkFormat 3 3 CoreProfile 4 1);
       NewGuiApplication (argv env);
       SetApplicationName "Liquid Glass Demo";
       SetOrganizationName "LiquidGlass";
       SetOrganizationDomain "liquidglass.demo";
       NewQmlEngine;
       AddImportPath (str (qml_dir env));
       AddImportPath (str (components_dir env)) ]
     ++ (if path_exists env (main_qml env)
         then Load (fromLocalFile (str (main_qml env)))
              :: (if truthy (loaded_roots env) then [Exec] else [])
         else []))%list.
Proof.
  destruct (run_cases env) as [Hrun | [Hrun | Hrun]]; outcome env Hrun.
  - unfold root_missing in Hrun. now rewrite Hrun.
  - destruct Hrun as [Hexists Hroots]. now rewrite Hexists, Hroots.
  - destruct Hrun as [Hexists Hroots]. rewrite Hexists.
    destruct (loaded_roots env); [congruence | reflexivity].
Qed.
